(** * Kuasar back end: the application bootstrap and its authentication schemas

    A shallow embedding of [app/schemas/user.py] and [app/main.py].

    - [Py]        the Python objects the two files evaluate or can be handed:
                  [None], strings, integers, the class [str],
                  [typing.Optional[...]] and any other object by what the code
                  can observe of it; truthiness and the boolean operator [or];
    - [Pydantic]  what deriving from [BaseModel] gives a class: its fields and the
                  keyword constructor that validates them;
    - [Schemas]   the three classes of [app/schemas/user.py];
    - [Main]      the top-level statements of [app/main.py] as a state-passing
                  program over the process' observable effects;
    - [Auth]      the login and token-validation flow the specification describes
                  (its code is not part of the two files). *)

From Stdlib Require Import ZArith List Bool Lia DecimalString.
From stdpp Require Import gmap strings list fin_maps.

Open Scope string_scope.

(* ===================================================================== *)
(** ** Python objects                                                      *)
(* ===================================================================== *)

Module Py.

(** The objects that occur in the two files, or that can be passed to the
    classes they define. Any object that is none of the first five is a
    [PyOther]: it is given by what the code can observe of it, which is its
    truth value and what the [str] validator of pydantic 1 and of pydantic 2
    makes of it, the string it converts the object to or nothing when it
    refuses the object. An integer is a [PyInt] when the interpreter converts it
    to decimal; where the interpreter limits the number of digits, a longer
    integer is a [PyOther] that version 1 refuses. *)
Inductive pyobj : Type :=
| PyNone                        (* None *)
| PyStr (s : string)            (* a str instance *)
| PyInt (z : Z)                 (* an int instance *)
| Py_str                        (* the class object str *)
| PyOptional (o : pyobj)        (* typing.Optional[o] *)
| PyOther (truth : bool) (str_v1 str_v2 : option string).

#[export] Instance pyobj_eq_dec : EqDecision pyobj.
Proof. solve_decision. Defined.

(** [bool(o)]: [None] is false, a string is true when it is not empty, an integer
    when it is not zero; a class object and a typing construct define neither
    [__bool__] nor [__len__], so they are true. *)
Definition truthy (o : pyobj) : bool :=
  match o with
  | PyNone => false
  | PyStr s => negb (String.eqb s "")
  | PyInt z => negb (Z.eqb z 0)
  | Py_str => true
  | PyOptional _ => true
  | PyOther truth _ _ => truth
  end.

(** [a or b]: [a] when it is true, otherwise [b]. The result is one of the
    operands, not a boolean. *)
Definition py_or (a b : pyobj) : pyobj := if truthy a then a else b.

(** [str(z)] for an integer: decimal digits, a leading minus for negatives. *)
Definition str_of_int (z : Z) : string := NilZero.string_of_int (Z.to_int z).

(** Other objects that matter to a [str] field. A [bytes] or a [bytearray] is
    decoded as UTF-8 by both versions, and refused when it is not valid UTF-8;
    it is true when it is not empty. *)
Definition PyBytes (nonempty : bool) (decoded : option string) : pyobj :=
  PyOther nonempty decoded decoded.

(** [True] and [False] are integers to version 1, which stores [str(...)] of
    them; version 2 refuses them. *)
Definition PyBool (b : bool) : pyobj :=
  PyOther b (Some (if b then "True" else "False")) None.

(** A [float] or a [Decimal], given by whether it is non-zero and by its
    [str(...)]: version 1 stores the latter, version 2 refuses the object. *)
Definition PyNumber (nonzero : bool) (repr : string) : pyobj :=
  PyOther nonzero (Some repr) None.

End Py.

(* ===================================================================== *)
(** ** pydantic's BaseModel                                                *)
(* ===================================================================== *)

Module Pydantic.
Import Py.

(** The two major versions differ in how a [str] field treats integers and an
    explicit [None]; nothing in the repository pins one, so the constructor takes
    the version as an argument and the theorems hold for both. *)
Inductive version : Type := V1 | V2.

(** One annotated assignment of a class body, [name: annotation] or
    [name: annotation = default]. Both expressions are evaluated when the class
    statement runs, so the record holds their values. *)
Record field : Type := Field {
  f_name : string;
  f_annotation : pyobj;
  f_default : option pyobj
}.

(** A class statement: its name, its bases and the annotated assignments of its
    body, in source order. *)
Record model_class : Type := ModelClass {
  c_name : string;
  c_bases : list string;
  c_fields : list field
}.

Inductive error_kind : Type :=
| Missing             (* a required field was not supplied *)
| NoneNotAllowed      (* None supplied where it is not allowed (version 1) *)
| StringType          (* the value is not a valid string *)
| UnsupportedType.    (* the annotation is no type the validator knows *)

(** Validation of a value against [str]. Both versions return a string as it
    is; version 1 also converts an integer with [str(...)], version 2 refuses
    it. Any other object is converted or refused as the version does with it.
    [None], classes and typing constructs are refused. *)
Definition str_validator (v : version) (x : pyobj) : pyobj + error_kind :=
  match x with
  | PyStr s => inl (PyStr s)
  | PyInt z => match v with V1 => inl (PyStr (str_of_int z)) | V2 => inr StringType end
  | PyOther _ str_v1 str_v2 =>
      match (match v with V1 => str_v1 | V2 => str_v2 end) with
      | Some s => inl (PyStr s)
      | None => inr StringType
      end
  | _ => inr StringType
  end.

(** Whether the field accepts an explicit [None]. An [Optional[...]] annotation
    does in both versions; version 1 also lets a field whose default is [None]
    accept it, whatever the annotation. *)
Definition allow_none (v : version) (f : field) : bool :=
  match f_annotation f with
  | PyOptional _ => true
  | _ => match v, f_default f with
         | V1, Some PyNone => true
         | _, _ => false
         end
  end.

(** The type the value is checked against once [None] is dealt with. *)
Definition outer_type (f : field) : pyobj :=
  match f_annotation f with
  | PyOptional t => t
  | t => t
  end.

(** Validation of a supplied value for a field. *)
Definition validate_field (v : version) (f : field) (x : pyobj) : pyobj + error_kind :=
  match x with
  | PyNone =>
      if allow_none v f then inl PyNone
      else inr (match v with V1 => NoneNotAllowed | V2 => StringType end)
  | _ =>
      match outer_type f with
      | Py_str => str_validator v x
      | _ => inr UnsupportedType
      end
  end.

(** The fields are validated in source order. A field that is not among the
    keyword arguments takes its default as it is, without validation, or is
    reported missing when it has none. Keyword arguments that name no field are
    ignored. The result is the instance's values together with the errors, in
    field order. *)
Fixpoint validate_model (v : version) (fields : list field) (kwargs : gmap string pyobj)
  : gmap string pyobj * list (string * error_kind) :=
  match fields with
  | [] => (∅, [])
  | f :: rest =>
      let '(values, errors) := validate_model v rest kwargs in
      match kwargs !! f_name f with
      | None =>
          match f_default f with
          | None => (values, (f_name f, Missing) :: errors)
          | Some d => (<[f_name f := d]> values, errors)
          end
      | Some x =>
          match validate_field v f x with
          | inl x' => (<[f_name f := x']> values, errors)
          | inr e => (values, (f_name f, e) :: errors)
          end
      end
  end.

Inductive init_result : Type :=
| ModelInstance (values : gmap string pyobj)
| ValidationError (errors : list (string * error_kind)).

(** Calling the class with keyword arguments: the instance when no field
    failed, otherwise
    [ValidationError] with every failure. *)
Definition init (v : version) (cls : model_class) (kwargs : gmap string pyobj) : init_result :=
  match validate_model v (c_fields cls) kwargs with
  | (values, []) => ModelInstance values
  | (_, e :: errors) => ValidationError (e :: errors)
  end.

(** What a field contributes to the instance when it does not fail: the
    validated argument, or the default when there is no argument. *)
Definition field_value (v : version) (kwargs : gmap string pyobj) (f : field) : option pyobj :=
  match kwargs !! f_name f with
  | None => f_default f
  | Some x => match validate_field v f x with inl x' => Some x' | inr _ => None end
  end.

(** The names of a class' fields. *)
Definition field_names (cls : model_class) : list string := map f_name (c_fields cls).

End Pydantic.

(* ===================================================================== *)
(** ** app/schemas/user.py                                                 *)
(* ===================================================================== *)

Module Schemas.
Import Py Pydantic.

(** class User(BaseModel): username: str; email: str *)
Definition User : model_class :=
  ModelClass "User" ["BaseModel"]
    [ Field "username" Py_str None;
      Field "email" Py_str None ].

(** class Token(BaseModel): access_token: str; token_type: str *)
Definition Token : model_class :=
  ModelClass "Token" ["BaseModel"]
    [ Field "access_token" Py_str None;
      Field "token_type" Py_str None ].

(** class TokenData(BaseModel): username: str or None = None *)
Definition TokenData : model_class :=
  ModelClass "TokenData" ["BaseModel"]
    [ Field "username" (py_or Py_str PyNone) (Some PyNone) ].

(** The class statements of the module, in source order. *)
Definition classes : list model_class := [User; Token; TokenData].

(** The classes that derive from [BaseModel]. *)
Definition schemas : list model_class :=
  filter (fun c => bool_decide ("BaseModel" ∈ c_bases c)) classes.

(** The field of a class with a given name. *)
Definition get_field (cls : model_class) (name : string) : option field :=
  find (fun f => String.eqb (f_name f) name) (c_fields cls).

End Schemas.

(* ===================================================================== *)
(** ** app/main.py                                                         *)
(* ===================================================================== *)

Module Main.

(** What a top-level statement does that is visible outside the module's own
    namespace. *)
Inductive effect : Type :=
| ImportFrom (module : string) (names : list string)   (* from module import names *)
| CreateAll (metadata bind : string)                   (* metadata.create_all(bind=...) *)
| NewFastAPI                                           (* FastAPI() *)
| IncludeRouter (router : string).                     (* app.include_router(router) *)

(** A [FastAPI] instance, as far as the file uses it: the routers registered on
    it, in registration order. *)
Record FastAPI : Type := { routers : list string }.

(** Statements run in order against the log of the effects so far. *)
Definition M (A : Type) : Type := list effect → A * list effect.

#[export] Instance M_ret : MRet M := λ A (a : A) log, (a, log).
#[export] Instance M_bind : MBind M :=
  λ A B (k : A → M B) (c : M A) log, let '(a, log') := c log in k a log'.

Definition emit (e : effect) : M unit := λ log, (tt, (log ++ [e])%list).

Definition import_from (module : string) (names : list string) : M unit :=
  emit (ImportFrom module names).

(** [metadata.create_all(bind=engine)]: asks the engine which tables exist and
    creates those that do not. *)
Definition create_all (metadata bind : string) : M unit :=
  emit (CreateAll metadata bind).

Definition FastAPI_new : M FastAPI :=
  emit NewFastAPI ;; mret {| routers := [] |}.

Definition include_router (app : FastAPI) (router : string) : M FastAPI :=
  emit (IncludeRouter router) ;; mret {| routers := (routers app ++ [router])%list |}.

(** The file, statement by statement; the result is the module's global [app]. *)
Definition main : M FastAPI :=
  import_from "fastapi" ["FastAPI"] ;;
  import_from "auth" ["user"] ;;
  import_from "database" ["engine"; "Base"] ;;
  create_all "Base.metadata" "engine" ;;
  app ← FastAPI_new ;
  include_router app "user.router".

(** [app/schemas/user.py], statement by statement: two imports, then three
    class statements, which bind names and do nothing else. *)
Definition schemas_user : M (list Pydantic.model_class) :=
  import_from "pydantic" ["BaseModel"] ;;
  import_from "typing" ["Optional"] ;;
  mret Schemas.classes.

(** Running a module from an empty log. *)
Definition exec {A : Type} (m : M A) : A * list effect := m [].

(** The effects that reach the storage engine. *)
Definition is_database_work (e : effect) : bool :=
  match e with CreateAll _ _ => true | _ => false end.

Definition is_router_registration (e : effect) : bool :=
  match e with IncludeRouter _ => true | _ => false end.

End Main.

(* ===================================================================== *)
(** ** The login and token-validation flow                                 *)
(* ===================================================================== *)

Module Auth.

(** Modelled from the spec: the record the Credential Store keeps for a user
    (section 3); the store's code is not among the files. *)
Record UserRecord : Type := {
  username : string;
  email : string;
  password_hash : string
}.

(** Modelled from the spec: the transient credentials of one login call. *)
Record Credentials : Type := {
  cred_username : string;
  plaintext_password : string
}.

(** Modelled from the spec: the decoded form of a token (section 3). *)
Record TokenClaims : Type := {
  claims_username : string;
  expires_at : Z
}.

(** Modelled from the spec: a presented token string, read as the validator
    reads it: claims with a signature, or something that is neither. *)
Inductive token_string : Type :=
| Signed (claims : TokenClaims) (signature : string)
| Malformed (raw : string).

(** Modelled from the spec: the token a successful login returns. *)
Record Token : Type := {
  access_token : token_string;
  token_type : string
}.

(** Modelled from the spec: the Password Hasher (4.2) and the signature scheme
    of the Token Issuer and Validator (4.3, 4.4), with the configured TTL, a
    duration. The hasher salts internally, so [hash] takes the salt it drew. *)
Class Primitives : Type := {
  hash : nat → string → string;
  verify : string → string → bool;
  sign : string → TokenClaims → string;
  verify_signature : string → TokenClaims → string → bool;
  TTL : N
}.

(** Modelled from the spec: what the primitives promise: a password verifies
    against its own hash, and a signature made with a key verifies under it. *)
Class PrimitivesOk (P : Primitives) : Prop := {
  verify_hash : ∀ salt p, verify p (hash salt p) = true;
  verify_sign : ∀ key c, verify_signature key c (sign key c) = true
}.

(** Modelled from the spec: [find_by_username] of the Credential Store (4.1),
    over a store keyed by username. *)
Definition find_by_username (store : gmap string UserRecord) (u : string) : option UserRecord :=
  store !! u.

(** Modelled from the spec: registration stores the hash of the password under
    the username, unless the username is taken. *)
Definition register `{Primitives} (store : gmap string UserRecord)
  (u mail p : string) (salt : nat) : gmap string UserRecord :=
  match store !! u with
  | Some _ => store
  | None => <[u := {| username := u; email := mail; password_hash := hash salt p |}]> store
  end.

(** Modelled from the spec: a registered pair: the store holds a record for the
    username whose hash was made from the password. *)
Definition registered `{Primitives} (store : gmap string UserRecord) (u p : string) : Prop :=
  ∃ r salt, store !! u = Some r ∧ username r = u ∧ password_hash r = hash salt p.

(** Modelled from the spec: [issue] of the Token Issuer (4.3). *)
Definition issue `{Primitives} (key u : string) (issued_at : Z) : Token :=
  let c := {| claims_username := u; expires_at := (issued_at + Z.of_N TTL)%Z |} in
  {| access_token := Signed c (sign key c); token_type := "bearer" |}.

(** Modelled from the spec: the three outcomes of the Token Validator (4.4). *)
Inductive validation : Type :=
| Valid (claims : TokenClaims)
| Invalid
| Expired.

(** Modelled from the spec: [validate]: a token is valid if and only if its
    signature verifies and its expiry has not elapsed; it is expired once the
    current time exceeds the expiry, and never before. *)
Definition validate `{Primitives} (key : string) (now : Z) (t : token_string) : validation :=
  match t with
  | Malformed _ => Invalid
  | Signed c sig =>
      if verify_signature key c sig
      then if (expires_at c <? now)%Z then Expired else Valid c
      else Invalid
  end.

(** Modelled from the spec: the states of one login attempt (4.5). *)
Inductive login_state : Type :=
| Received (c : Credentials)
| CredentialLookup (c : Credentials)
| PasswordCheck (r : UserRecord) (c : Credentials)
| Rejected
| TokenIssued (t : Token).

(** Modelled from the spec: one transition of the login state machine; the two
    terminal states have none. *)
Definition step `{Primitives} (store : gmap string UserRecord) (key : string) (now : Z)
  (st : login_state) : option login_state :=
  match st with
  | Received c => Some (CredentialLookup c)
  | CredentialLookup c =>
      match find_by_username store (cred_username c) with
      | None => Some Rejected
      | Some r => Some (PasswordCheck r c)
      end
  | PasswordCheck r c =>
      if verify (plaintext_password c) (password_hash r)
      then Some (TokenIssued (issue key (username r) now))
      else Some Rejected
  | Rejected => None
  | TokenIssued _ => None
  end.

(** Modelled from the spec: at most [fuel] transitions from a state, with the
    number of transitions taken. *)
Fixpoint run `{Primitives} (store : gmap string UserRecord) (key : string) (now : Z)
  (fuel : nat) (st : login_state) : login_state * nat :=
  match fuel with
  | O => (st, O)
  | S fuel' =>
      match step store key now st with
      | None => (st, O)
      | Some st' => let '(final, n) := run store key now fuel' st' in (final, S n)
      end
  end.

(** Modelled from the spec: a login attempt is the machine run from [Received];
    three transitions reach a terminal state on every path. *)
Definition login `{Primitives} (store : gmap string UserRecord) (key : string) (now : Z)
  (u p : string) : login_state :=
  fst (run store key now 3 (Received {| cred_username := u; plaintext_password := p |})).

(** Modelled from the spec: the number of transitions a login attempt takes. *)
Definition transitions `{Primitives} (store : gmap string UserRecord) (key : string) (now : Z)
  (u p : string) : nat :=
  snd (run store key now 3 (Received {| cred_username := u; plaintext_password := p |})).

(** Modelled from the spec: what the HTTP boundary answers (section 6):
    200 with the token, or 401 with no detail. *)
Inductive response : Type :=
| Ok200 (t : Token)
| Unauthorized401.

(** Modelled from the spec: a token is answered with 200, everything else
    with 401. *)
Definition respond (st : login_state) : response :=
  match st with
  | TokenIssued t => Ok200 t
  | _ => Unauthorized401
  end.

(** Primitives small enough to run the scenarios with: the hash is the password
    itself whatever the salt, the signature is the key followed by the
    username. *)
Definition toy : Primitives := {|
  hash := λ _ p, p;
  verify := λ p h, String.eqb p h;
  sign := λ key c, String.append key (claims_username c);
  verify_signature := λ key c s, String.eqb s (String.append key (claims_username c));
  TTL := 3600%N
|}.

(** The store of the specification's scenario: alice has registered with the
    password wonderland123. *)
Definition alice_store : gmap string UserRecord :=
  register (H := toy) ∅ "alice" "alice@example.org" "wonderland123" 7.

End Auth.

Import Py Pydantic Schemas.

(** Keyword arguments used in the examples below. *)
Module Samples.

Definition token_mac : gmap string pyobj :=
  {[ "access_token" := PyStr "abc"; "token_type" := PyStr "mac" ]}.

Definition alice_token_data : gmap string pyobj := {[ "username" := PyStr "alice" ]}.

Definition alice_with_password : gmap string pyobj :=
  {[ "username" := PyStr "alice"; "email" := PyStr "alice@example.org";
     "password" := PyStr "wonderland123" ]}.

Definition alice_user : gmap string pyobj :=
  {[ "username" := PyStr "alice"; "email" := PyStr "alice@example.org" ]}.

Definition only_access_token : gmap string pyobj := {[ "access_token" := PyStr "abc" ]}.

Definition only_email : gmap string pyobj := {[ "email" := PyStr "alice@example.org" ]}.

Definition token_abc : gmap string pyobj :=
  {[ "access_token" := PyStr "abc"; "token_type" := PyStr "bearer" ]}.

Definition token_data_default : gmap string pyobj := {[ "username" := PyNone ]}.

End Samples.

Example ex_str_or_None : py_or Py_str PyNone = Py_str.
Proof. reflexivity. Qed.

Example ex_user_ok :
  init V2 User {[ "username" := PyStr "alice"; "email" := PyStr "a@b.c"; "password" := PyStr "pw" ]}
  = ModelInstance {[ "username" := PyStr "alice"; "email" := PyStr "a@b.c" ]}.
Proof. vm_compute. reflexivity. Qed.

Example ex_token_missing :
  init V1 Token {[ "access_token" := PyInt (-12) ]}
  = ValidationError [("token_type", Missing)].
Proof. vm_compute. reflexivity. Qed.

(** Objects that are neither strings nor integers: both versions decode
    [bytes]; version 1 stores [str(...)] of [True] and of [1.5], version 2
    refuses them. *)
Example ex_user_bytes :
  init V2 User {[ "username" := PyBytes true (Some "alice"); "email" := PyBytes true (Some "x") ]}
  = ModelInstance {[ "username" := PyStr "alice"; "email" := PyStr "x" ]}.
Proof. vm_compute. reflexivity. Qed.

Example ex_tokendata_True :
  init V1 TokenData {[ "username" := PyBool true ]}
  = ModelInstance {[ "username" := PyStr "True" ]}
  ∧ init V1 TokenData {[ "username" := PyNumber true "1.5" ]}
    = ModelInstance {[ "username" := PyStr "1.5" ]}
  ∧ init V2 TokenData {[ "username" := PyBool true ]}
    = ValidationError [("username", StringType)].
Proof. repeat split; vm_compute; reflexivity. Qed.

Example ex_tokendata_empty : init V2 TokenData ∅ = ModelInstance {[ "username" := PyNone ]}.
Proof. vm_compute. reflexivity. Qed.

(* ===================================================================== *)
(** ** The constructor, for any class                                      *)
(* ===================================================================== *)

Section ValidateModel.
Variable v : version.
Variable kwargs : gmap string pyobj.

(** One field more: the model is valid exactly when the field and the rest
    are. *)
Lemma validate_model_cons f rest values :
  validate_model v (f :: rest) kwargs = (values, []) →
  ∃ x values', field_value v kwargs f = Some x
             ∧ validate_model v rest kwargs = (values', [])
             ∧ values = <[f_name f := x]> values'.
Proof.
  cbn [validate_model]. unfold field_value.
  destruct (validate_model v rest kwargs) as [values' errors].
  destruct (kwargs !! f_name f) as [x|].
  - destruct (validate_field v f x) as [x'|e]; intros [= <- ->]; eauto.
  - destruct (f_default f) as [d|]; intros [= <- ->]; eauto.
Qed.

(** A valid instance has exactly the class' fields. *)
Lemma validate_model_dom fields values :
  validate_model v fields kwargs = (values, []) →
  dom values = list_to_set (map f_name fields).
Proof.
  revert values. induction fields as [|f rest IH]; intros values.
  - cbn. intros [= <-]. apply dom_empty_L.
  - intros (x & values' & _ & Hrest & ->)%validate_model_cons.
    rewrite dom_insert_L, (IH _ Hrest). reflexivity.
Qed.

(** A valid instance holds, for each field, the validated argument or the
    default. *)
Lemma validate_model_lookup fields values f :
  NoDup (map f_name fields) → f ∈ fields →
  validate_model v fields kwargs = (values, []) →
  values !! f_name f = field_value v kwargs f ∧ is_Some (field_value v kwargs f).
Proof.
  revert values. induction fields as [|g rest IH]; intros values Hnd Hin.
  - inversion Hin.
  - intros (x & values' & Hx & Hrest & ->)%validate_model_cons.
    cbn in Hnd. apply NoDup_cons in Hnd as [Hg Hnd].
    apply elem_of_cons in Hin as [->|Hin].
    + rewrite lookup_insert_eq, Hx. eauto.
    + rewrite lookup_insert_ne; [by apply IH|].
      intros Heq. apply Hg. rewrite Heq. apply list_elem_of_fmap. eauto.
Qed.

(** A required field that is not supplied is reported missing. *)
Lemma validate_model_missing fields f :
  f ∈ fields → f_default f = None → kwargs !! f_name f = None →
  (f_name f, Missing) ∈ (validate_model v fields kwargs).2.
Proof.
  induction fields as [|g rest IH]; intros Hin Hreq Hkw.
  - inversion Hin.
  - cbn [validate_model].
    destruct (validate_model v rest kwargs) as [values errors] eqn:Hrest.
    apply elem_of_cons in Hin as [<-|Hin].
    + rewrite Hkw, Hreq. cbn. apply elem_of_cons. by left.
    + specialize (IH Hin Hreq Hkw). cbn in IH.
      destruct (kwargs !! f_name g) as [x|].
      * destruct (validate_field v g x); cbn; [done | by apply elem_of_cons; right].
      * destruct (f_default g); cbn; [done | by apply elem_of_cons; right].
Qed.

End ValidateModel.

(** The constructor returns an instance exactly when validation reports no
    error. *)
Lemma init_instance v cls kwargs values :
  init v cls kwargs = ModelInstance values ↔
  validate_model v (c_fields cls) kwargs = (values, []).
Proof.
  unfold init. destruct (validate_model v (c_fields cls) kwargs) as [vs [|e es]].
  - split; [intros [= ->] | intros [= ->]]; reflexivity.
  - split; intros; discriminate.
Qed.

(** A value validated against [str] is a string. *)
Lemma str_validator_str v x y : str_validator v x = inl y → ∃ s, y = PyStr s.
Proof.
  destruct x as [|s|z| |o|truth [s1|] [s2|]], v; cbn;
    intros [= <-] || discriminate; eauto.
Qed.

(** A field annotated [str] with no default holds a string in every instance:
    the supplied string itself when a string was supplied, otherwise the string
    the version converts the supplied object to. *)
Lemma required_str_field_value v kwargs name y :
  field_value v kwargs (Field name Py_str None) = Some y →
  ∃ s, y = PyStr s ∧ ∀ t, kwargs !! name = Some (PyStr t) → s = t.
Proof.
  unfold field_value. cbn.
  destruct (kwargs !! name) as [x|]; [|discriminate].
  destruct x as [|s0|z| |o|truth [s1|] [s2|]]; destruct v; cbn; try discriminate.
  all: intros [= <-]; eexists; split; [reflexivity|]; intros t; try discriminate.
  all: by intros [= ->].
Qed.

(* ===================================================================== *)
(** ** The schemas of app/schemas/user.py                                  *)
(* ===================================================================== *)

Lemma User_fields_NoDup : NoDup (map f_name (c_fields User)).
Proof. compute_done. Qed.

Lemma Token_fields_NoDup : NoDup (map f_name (c_fields Token)).
Proof. compute_done. Qed.

(** C1. The annotation of [TokenData.username] is written [str or None]; [str]
    is true, so [or] returns [str] itself. The field is therefore annotated with
    the plain class [str], which is not [Optional[str]], and its default is
    [None]. *)
Theorem TokenData_username_annotation :
  truthy Py_str = true
  ∧ py_or Py_str PyNone = Py_str
  ∧ py_or Py_str PyNone ≠ PyOptional Py_str
  ∧ get_field TokenData "username" = Some (Field "username" Py_str (Some PyNone)).
Proof.
  assert (Hor : py_or Py_str PyNone = Py_str) by reflexivity.
  split; [reflexivity|]. split; [exact Hor|].
  split; [rewrite Hor; discriminate | reflexivity].
Qed.

(** What the plain [str] annotation costs under version 2: an explicit [None]
    is refused, although it is the field's own default. *)
Lemma TokenData_explicit_None :
  init V2 TokenData {[ "username" := PyNone ]} = ValidationError [("username", StringType)]
  ∧ init V1 TokenData {[ "username" := PyNone ]} = ModelInstance {[ "username" := PyNone ]}.
Proof. split; vm_compute; reflexivity. Qed.

(** C2, as the specification states it, fails: a [Token] whose [token_type] is
    ["mac"] is built without complaint. *)
Lemma Token_token_type_mac :
  init V2 Token Samples.token_mac = ModelInstance Samples.token_mac
  ∧ Samples.token_mac !! "token_type" = Some (PyStr "mac")
  ∧ Samples.token_mac !! "token_type" ≠ Some (PyStr "bearer").
Proof.
  split; [vm_compute; reflexivity|].
  split; [vm_compute; reflexivity | vm_compute; discriminate].
Qed.

(** Any two strings make a [Token]. *)
Lemma Token_of_strings v a t :
  init v Token {[ "access_token" := PyStr a; "token_type" := PyStr t ]}
  = ModelInstance {[ "access_token" := PyStr a; "token_type" := PyStr t ]}.
Proof.
  apply init_instance. cbn [c_fields Token validate_model f_name f_default].
  rewrite lookup_insert_eq, lookup_insert_ne, lookup_singleton_eq by discriminate.
  destruct v; cbn; by rewrite insert_empty.
Qed.

(** C2, amended. In every [Token] instance [token_type] is a string, not
    necessarily ["bearer"]: a string the caller supplied for it is stored as it
    is, and every string is accepted as [token_type]. *)
Theorem Token_token_type_any_string v kwargs inst :
  init v Token kwargs = ModelInstance inst →
  (∃ s, inst !! "token_type" = Some (PyStr s)
      ∧ ∀ t, kwargs !! "token_type" = Some (PyStr t) → s = t)
  ∧ ∀ a t, ∃ inst', init v Token {[ "access_token" := PyStr a; "token_type" := PyStr t ]}
                    = ModelInstance inst'
                  ∧ inst' !! "token_type" = Some (PyStr t).
Proof.
  intros Hinit%init_instance. split.
  - destruct (validate_model_lookup v kwargs _ _ (Field "token_type" Py_str None)
                Token_fields_NoDup ltac:(repeat constructor) Hinit) as [Hlk [y Hy]].
    cbn [f_name] in Hlk. rewrite Hlk, Hy.
    apply required_str_field_value in Hy as (s & -> & Hs). eauto.
  - intros a t. eexists. split; [apply Token_of_strings|].
    rewrite lookup_insert_ne by discriminate. apply lookup_singleton_eq.
Qed.

Lemma Token_token_type_any_string_witness :
  init V2 Token Samples.token_mac = ModelInstance Samples.token_mac
  ∧ (∃ s, Samples.token_mac !! "token_type" = Some (PyStr s)
        ∧ ∀ t, Samples.token_mac !! "token_type" = Some (PyStr t) → s = t)
  ∧ ∀ a t, ∃ inst', init V2 Token {[ "access_token" := PyStr a; "token_type" := PyStr t ]}
                    = ModelInstance inst'
                  ∧ inst' !! "token_type" = Some (PyStr t).
Proof.
  split; [vm_compute; reflexivity|].
  apply (Token_token_type_any_string V2 Samples.token_mac Samples.token_mac).
  vm_compute. reflexivity.
Defined.

(** C3, as the specification states it, fails: a [TokenData] instance has no
    [expires_at], and the class' fields are not [username] and [expires_at]. *)
Lemma TokenData_no_expires_at :
  init V2 TokenData Samples.alice_token_data = ModelInstance Samples.alice_token_data
  ∧ Samples.alice_token_data !! "expires_at" = None
  ∧ field_names TokenData ≠ ["username"; "expires_at"].
Proof.
  split; [vm_compute; reflexivity|].
  split; [vm_compute; reflexivity | discriminate].
Qed.

(** C3, amended. [TokenData] has the single field [username]; every instance
    holds exactly that field, and none holds an [expires_at]. *)
Theorem TokenData_only_username v kwargs inst :
  init v TokenData kwargs = ModelInstance inst →
  field_names TokenData = ["username"]
  ∧ dom inst = {[ "username" ]}
  ∧ inst !! "expires_at" = None.
Proof.
  intros Hinit%init_instance. apply validate_model_dom in Hinit.
  cbn in Hinit. split; [reflexivity|].
  assert (Hdom : dom inst = {[ "username" ]}) by (rewrite Hinit; apply union_empty_r_L).
  split; [exact Hdom|].
  apply not_elem_of_dom. rewrite Hdom. by apply not_elem_of_singleton.
Qed.

Lemma TokenData_only_username_witness :
  init V2 TokenData Samples.alice_token_data = ModelInstance Samples.alice_token_data
  ∧ field_names TokenData = ["username"]
  ∧ dom Samples.alice_token_data = {[ "username" ]}
  ∧ Samples.alice_token_data !! "expires_at" = None.
Proof.
  split; [vm_compute; reflexivity|].
  apply (TokenData_only_username V2 Samples.alice_token_data).
  vm_compute. reflexivity.
Defined.

(** C7. The module defines three schema classes, [User], [Token] and
    [TokenData], in that order, and no other class; [User] has the fields
    [username] and [email], [Token] has [access_token] and [token_type], each
    annotated [str]. *)
Theorem schemas_User_Token_TokenData :
  schemas = classes
  ∧ length schemas = 3
  ∧ map c_name schemas = ["User"; "Token"; "TokenData"]
  ∧ map (λ f, (f_name f, f_annotation f)) (c_fields User)
    = [("username", Py_str); ("email", Py_str)]
  ∧ map (λ f, (f_name f, f_annotation f)) (c_fields Token)
    = [("access_token", Py_str); ("token_type", Py_str)].
Proof.
  assert (Hs : schemas = classes) by (vm_compute; reflexivity).
  rewrite Hs. repeat split; reflexivity.
Qed.

(** C8. [TokenData()] succeeds and its [username] is [None], in both versions:
    the default is taken as it is, although the annotation is [str] and the
    [str] validator refuses [None]. *)
Theorem TokenData_no_arguments v :
  init v TokenData ∅ = ModelInstance {[ "username" := PyNone ]}
  ∧ map f_annotation (c_fields TokenData) = [Py_str]
  ∧ str_validator v PyNone = inr StringType.
Proof.
  split; [|split; reflexivity].
  apply init_instance. cbn [c_fields TokenData validate_model f_name f_default].
  rewrite lookup_empty. reflexivity.
Qed.

(** C9. Every [User] instance holds exactly [username] and [email]: no
    [password] and no [password_hash], whatever the keyword arguments were. *)
Theorem User_exposes_username_email v kwargs inst :
  init v User kwargs = ModelInstance inst →
  dom inst = {[ "username"; "email" ]}
  ∧ inst !! "password" = None
  ∧ inst !! "password_hash" = None.
Proof.
  intros Hinit%init_instance. apply validate_model_dom in Hinit.
  assert (Hdom : dom inst = {[ "username"; "email" ]}).
  { rewrite Hinit. cbn. by rewrite union_empty_r_L. }
  split; [exact Hdom|].
  split; apply not_elem_of_dom; rewrite Hdom;
    intros [H|H]%elem_of_union; apply elem_of_singleton in H; discriminate.
Qed.

Lemma User_exposes_username_email_witness :
  init V2 User Samples.alice_with_password = ModelInstance Samples.alice_user
  ∧ dom Samples.alice_user = {[ "username"; "email" ]}
  ∧ Samples.alice_user !! "password" = None
  ∧ Samples.alice_user !! "password_hash" = None.
Proof.
  split; [vm_compute; reflexivity|].
  apply (User_exposes_username_email V2 Samples.alice_with_password).
  vm_compute. reflexivity.
Defined.

(** C10. A [Token] cannot be built without [access_token] or without
    [token_type]: the constructor raises [ValidationError], which names each
    omitted field as missing. Neither field has a default; [token_type] in
    particular does not default to ["bearer"]. *)
Theorem Token_requires_both_fields v kwargs :
  kwargs !! "access_token" = None ∨ kwargs !! "token_type" = None →
  (∃ errors, init v Token kwargs = ValidationError errors
           ∧ (kwargs !! "access_token" = None → ("access_token", Missing) ∈ errors)
           ∧ (kwargs !! "token_type" = None → ("token_type", Missing) ∈ errors))
  ∧ map f_default (c_fields Token) = [None; None]
  ∧ get_field Token "token_type" = Some (Field "token_type" Py_str None).
Proof.
  intros Hmiss. split; [|split; reflexivity].
  assert (Ha : kwargs !! "access_token" = None →
               ("access_token", Missing) ∈ (validate_model v (c_fields Token) kwargs).2).
  { intros H. by apply (validate_model_missing v kwargs _ (Field "access_token" Py_str None));
      [repeat constructor | |]. }
  assert (Ht : kwargs !! "token_type" = None →
               ("token_type", Missing) ∈ (validate_model v (c_fields Token) kwargs).2).
  { intros H. by apply (validate_model_missing v kwargs _ (Field "token_type" Py_str None));
      [repeat constructor | |]. }
  unfold init.
  destruct (validate_model v (c_fields Token) kwargs) as [values [|e errors]]; cbn in *.
  - destruct Hmiss as [H|H]; [apply Ha in H | apply Ht in H]; inversion H.
  - eauto.
Qed.

Lemma Token_requires_both_fields_witness :
  Samples.only_access_token !! "token_type" = None
  ∧ (∃ errors, init V2 Token Samples.only_access_token = ValidationError errors
             ∧ (Samples.only_access_token !! "access_token" = None →
                ("access_token", Missing) ∈ errors)
             ∧ (Samples.only_access_token !! "token_type" = None →
                ("token_type", Missing) ∈ errors))
  ∧ map f_default (c_fields Token) = [None; None]
  ∧ get_field Token "token_type" = Some (Field "token_type" Py_str None).
Proof.
  split; [vm_compute; reflexivity|].
  apply (Token_requires_both_fields V2 Samples.only_access_token).
  right. vm_compute. reflexivity.
Defined.

(* ===================================================================== *)
(** ** More on the constructor and the three classes                       *)
(* ===================================================================== *)

Section Constructor.
Variable v : version.

(** Validation looks at the keyword arguments only under the fields' names. *)
Lemma validate_model_agree fields (kwargs kwargs' : gmap string pyobj) :
  (∀ f, f ∈ fields → kwargs !! f_name f = kwargs' !! f_name f) →
  validate_model v fields kwargs = validate_model v fields kwargs'.
Proof.
  induction fields as [|f rest IH]; intros Hagree; [reflexivity|].
  cbn [validate_model].
  rewrite <- (Hagree f) by (apply elem_of_cons; by left).
  rewrite <- IH; [reflexivity|].
  intros g Hg. apply Hagree, elem_of_cons. by right.
Qed.

(** The errors name the fields that have no value, in source order. *)
Lemma validate_model_errors fields (kwargs : gmap string pyobj) :
  map fst (validate_model v fields kwargs).2
  = map f_name (filter (λ f, field_value v kwargs f = None) fields).
Proof.
  induction fields as [|f rest IH]; [reflexivity|].
  cbn [validate_model]. rewrite filter_cons.
  destruct (validate_model v rest kwargs) as [values errors]. cbn in IH.
  case_decide as Hf; unfold field_value in Hf;
    destruct (kwargs !! f_name f) as [x|];
    [ destruct (validate_field v f x) as [x'|e] | destruct (f_default f) as [d|]
    | destruct (validate_field v f x) as [x'|e] | destruct (f_default f) as [d|] ];
    try discriminate; try congruence; cbn; by rewrite IH.
Qed.

(** A class of two required [str] fields: an instance is two strings, and a
    string that was supplied is kept as it is. *)
Lemma two_str_fields_instance (kwargs : gmap string pyobj) n1 n2 inst :
  validate_model v [Field n1 Py_str None; Field n2 Py_str None] kwargs = (inst, []) →
  ∃ a b, inst = {[ n1 := PyStr a; n2 := PyStr b ]}
       ∧ (∀ t, kwargs !! n1 = Some (PyStr t) → a = t)
       ∧ (∀ t, kwargs !! n2 = Some (PyStr t) → b = t).
Proof.
  intros (x & values1 & Hx & Hrest & ->)%validate_model_cons.
  apply validate_model_cons in Hrest as (y & values2 & Hy & Hnil & ->).
  cbn in Hnil. injection Hnil as <-. cbn [f_name].
  apply required_str_field_value in Hx as (a & -> & Ha).
  apply required_str_field_value in Hy as (b & -> & Hb).
  exists a, b. rewrite insert_empty. eauto.
Qed.

(** Two strings under the two names are enough, whatever else is supplied. *)
Lemma two_str_fields_ok (kwargs : gmap string pyobj) n1 n2 a b :
  kwargs !! n1 = Some (PyStr a) → kwargs !! n2 = Some (PyStr b) →
  validate_model v [Field n1 Py_str None; Field n2 Py_str None] kwargs
  = ({[ n1 := PyStr a; n2 := PyStr b ]}, []).
Proof.
  intros H1 H2. cbn [validate_model f_name]. rewrite H1, H2. cbn.
  by rewrite insert_empty.
Qed.

End Constructor.

(** X1. A [User] cannot be built without [username] or without [email]: the
    constructor raises [ValidationError], which names each omitted field as
    missing, in both versions. *)
Theorem User_requires_both_fields v (kwargs : gmap string pyobj) :
  kwargs !! "username" = None ∨ kwargs !! "email" = None →
  ∃ errors, init v User kwargs = ValidationError errors
          ∧ (kwargs !! "username" = None → ("username", Missing) ∈ errors)
          ∧ (kwargs !! "email" = None → ("email", Missing) ∈ errors).
Proof.
  intros Hmiss.
  assert (Hu : kwargs !! "username" = None →
               ("username", Missing) ∈ (validate_model v (c_fields User) kwargs).2).
  { intros H. by apply (validate_model_missing v kwargs _ (Field "username" Py_str None));
      [repeat constructor | |]. }
  assert (He : kwargs !! "email" = None →
               ("email", Missing) ∈ (validate_model v (c_fields User) kwargs).2).
  { intros H. by apply (validate_model_missing v kwargs _ (Field "email" Py_str None));
      [repeat constructor | |]. }
  unfold init.
  destruct (validate_model v (c_fields User) kwargs) as [values [|e errors]]; cbn in *.
  - destruct Hmiss as [H|H]; [apply Hu in H | apply He in H]; inversion H.
  - eauto.
Qed.

Lemma User_requires_both_fields_witness :
  Samples.only_email !! "username" = None
  ∧ ∃ errors, init V1 User Samples.only_email = ValidationError errors
            ∧ (Samples.only_email !! "username" = None → ("username", Missing) ∈ errors)
            ∧ (Samples.only_email !! "email" = None → ("email", Missing) ∈ errors).
Proof.
  split; [vm_compute; reflexivity|].
  apply (User_requires_both_fields V1 Samples.only_email).
  left. vm_compute. reflexivity.
Defined.

(** X2. Every [User] instance is exactly a [username] and an [email], both
    strings; a string the caller supplied is stored as it is. *)
Theorem User_instance_two_strings v (kwargs inst : gmap string pyobj) :
  init v User kwargs = ModelInstance inst →
  ∃ u e, inst = {[ "username" := PyStr u; "email" := PyStr e ]}
       ∧ (∀ t, kwargs !! "username" = Some (PyStr t) → u = t)
       ∧ (∀ t, kwargs !! "email" = Some (PyStr t) → e = t).
Proof.
  intros Hinit%init_instance. by apply (two_str_fields_instance v kwargs).
Qed.

Lemma User_instance_two_strings_witness :
  init V2 User Samples.alice_with_password = ModelInstance Samples.alice_user
  ∧ ∃ u e, Samples.alice_user = {[ "username" := PyStr u; "email" := PyStr e ]}
         ∧ (∀ t, Samples.alice_with_password !! "username" = Some (PyStr t) → u = t)
         ∧ (∀ t, Samples.alice_with_password !! "email" = Some (PyStr t) → e = t).
Proof.
  split; [vm_compute; reflexivity|].
  apply (User_instance_two_strings V2 Samples.alice_with_password Samples.alice_user).
  vm_compute. reflexivity.
Defined.

(** X3. Every [Token] instance is exactly an [access_token] and a
    [token_type], both strings; a string the caller supplied is stored as it
    is. *)
Theorem Token_instance_two_strings v (kwargs inst : gmap string pyobj) :
  init v Token kwargs = ModelInstance inst →
  ∃ a t, inst = {[ "access_token" := PyStr a; "token_type" := PyStr t ]}
       ∧ (∀ s, kwargs !! "access_token" = Some (PyStr s) → a = s)
       ∧ (∀ s, kwargs !! "token_type" = Some (PyStr s) → t = s).
Proof.
  intros Hinit%init_instance. by apply (two_str_fields_instance v kwargs).
Qed.

Lemma Token_instance_two_strings_witness :
  init V2 Token Samples.token_abc = ModelInstance Samples.token_abc
  ∧ ∃ a t, Samples.token_abc = {[ "access_token" := PyStr a; "token_type" := PyStr t ]}
         ∧ (∀ s, Samples.token_abc !! "access_token" = Some (PyStr s) → a = s)
         ∧ (∀ s, Samples.token_abc !! "token_type" = Some (PyStr s) → t = s).
Proof.
  split; [vm_compute; reflexivity|].
  apply (Token_instance_two_strings V2 Samples.token_abc Samples.token_abc).
  vm_compute. reflexivity.
Defined.


(** X4. The constructor of any class reads the keyword arguments only under
    the names of the class' fields: two calls whose arguments agree there give
    the same result, instance or error. *)
Theorem init_ignores_other_arguments v cls (kwargs kwargs' : gmap string pyobj) :
  (∀ n, n ∈ field_names cls → kwargs !! n = kwargs' !! n) →
  init v cls kwargs = init v cls kwargs'.
Proof.
  intros Hagree. unfold init.
  rewrite (validate_model_agree v (c_fields cls) kwargs kwargs'); [reflexivity|].
  intros f Hf. apply Hagree. unfold field_names.
  apply list_elem_of_fmap. eauto.
Qed.

Lemma init_ignores_other_arguments_witness :
  (∀ n, n ∈ field_names User → Samples.alice_with_password !! n = Samples.alice_user !! n)
  ∧ init V2 User Samples.alice_with_password = init V2 User Samples.alice_user.
Proof.
  assert (Hagree : ∀ n, n ∈ field_names User →
            Samples.alice_with_password !! n = Samples.alice_user !! n).
  { intros n Hn. cbn in Hn.
    apply elem_of_cons in Hn as [->|Hn]; [vm_compute; reflexivity|].
    apply elem_of_cons in Hn as [->|Hn]; [vm_compute; reflexivity|].
    by apply elem_of_nil in Hn. }
  split; [exact Hagree|].
  exact (init_ignores_other_arguments V2 User _ _ Hagree).
Defined.

(** X5. A [User] or a [Token] can be rebuilt from its own values: passing the
    values of an instance back to the constructor returns the same instance. *)
Theorem instance_rebuilds v cls (kwargs inst : gmap string pyobj) :
  cls ∈ [User; Token] →
  init v cls kwargs = ModelInstance inst →
  init v cls inst = ModelInstance inst.
Proof.
  intros Hcls Hinit%init_instance.
  apply init_instance.
  apply elem_of_cons in Hcls as [->|Hcls];
    [|apply elem_of_cons in Hcls as [->|Hcls]; [|by apply elem_of_nil in Hcls]].
  all: apply (two_str_fields_instance v kwargs) in Hinit as (a & b & -> & _ & _).
  all: apply two_str_fields_ok;
    [ apply lookup_insert_eq
    | rewrite lookup_insert_ne by discriminate; apply lookup_singleton_eq ].
Qed.

Lemma instance_rebuilds_witness :
  User ∈ [User; Token]
  ∧ init V1 User Samples.alice_with_password = ModelInstance Samples.alice_user
  ∧ init V1 User Samples.alice_user = ModelInstance Samples.alice_user.
Proof.
  assert (Hcls : User ∈ [User; Token]) by (apply elem_of_cons; by left).
  assert (Hinit : init V1 User Samples.alice_with_password = ModelInstance Samples.alice_user)
    by (vm_compute; reflexivity).
  split; [exact Hcls|]. split; [exact Hinit|].
  exact (instance_rebuilds V1 User _ _ Hcls Hinit).
Defined.

(** A [TokenData] instance is its [username] alone, which is what the field
    contributes. *)
Lemma TokenData_instance v (kwargs inst : gmap string pyobj) :
  init v TokenData kwargs = ModelInstance inst →
  ∃ x, inst = {[ "username" := x ]}
     ∧ field_value v kwargs (Field "username" Py_str (Some PyNone)) = Some x.
Proof.
  intros Hinit%init_instance.
  apply validate_model_cons in Hinit as (x & values & Hx & Hnil & ->).
  cbn in Hnil. injection Hnil as <-. cbn [f_name].
  exists x. by rewrite insert_empty.
Qed.

(** X6. The [username] of a [TokenData] instance is [None] or a string. It is
    [None] exactly when no [username] was supplied or, in version 1 only, when
    [None] itself was supplied; a string that was supplied is stored as it
    is. *)
Theorem TokenData_username_None_or_string v (kwargs inst : gmap string pyobj) :
  init v TokenData kwargs = ModelInstance inst →
  ∃ x, inst = {[ "username" := x ]}
     ∧ (x = PyNone ∨ ∃ s, x = PyStr s)
     ∧ (x = PyNone ↔
        kwargs !! "username" = None ∨ v = V1 ∧ kwargs !! "username" = Some PyNone)
     ∧ (∀ s, kwargs !! "username" = Some (PyStr s) → x = PyStr s).
Proof.
  intros (x & -> & Hx)%TokenData_instance.
  exists x. split; [reflexivity|].
  unfold field_value in Hx. cbn in Hx.
  destruct (kwargs !! "username") as [y|].
  - destruct y as [|s|z| |o|truth [s1|] [s2|]], v; cbn in Hx;
      try discriminate; injection Hx as <-.
    all: split; [first [by left | right; eexists; reflexivity]|].
    all: split; [split; [intros; try discriminate | intros [|[]]; try discriminate]|].
    all: try (by right). all: try reflexivity.
    all: intros s'; try discriminate. all: by intros [= <-].
  - injection Hx as <-. split; [by left|]. split; [|intros s; discriminate].
    split; [intros _; by left | reflexivity].
Qed.

Lemma TokenData_username_None_or_string_witness :
  init V2 TokenData Samples.alice_token_data = ModelInstance Samples.alice_token_data
  ∧ ∃ x, Samples.alice_token_data = {[ "username" := x ]}
       ∧ (x = PyNone ∨ ∃ s, x = PyStr s)
       ∧ (x = PyNone ↔
          Samples.alice_token_data !! "username" = None
          ∨ V2 = V1 ∧ Samples.alice_token_data !! "username" = Some PyNone)
       ∧ (∀ s, Samples.alice_token_data !! "username" = Some (PyStr s) → x = PyStr s).
Proof.
  split; [vm_compute; reflexivity|].
  apply (TokenData_username_None_or_string V2 Samples.alice_token_data).
  vm_compute. reflexivity.
Defined.

(** X7. A [TokenData] can be rebuilt from its own values in version 1 always,
    and in version 2 exactly when its [username] is not [None]: there the
    instance made by [TokenData()] is refused by its own constructor. *)
Theorem TokenData_rebuilds_iff v (kwargs inst : gmap string pyobj) :
  init v TokenData kwargs = ModelInstance inst →
  (init v TokenData inst = ModelInstance inst
   ↔ v = V1 ∨ inst !! "username" ≠ Some PyNone).
Proof.
  intros (x & -> & Hx)%TokenData_instance.
  rewrite lookup_singleton_eq.
  assert (Hcases : x = PyNone ∨ ∃ s, x = PyStr s).
  { unfold field_value in Hx. cbn in Hx.
    destruct (kwargs !! "username") as [y|]; [|injection Hx as <-; by left].
    destruct y as [|s|z| |o|truth [s1|] [s2|]], v; cbn in Hx;
      try discriminate; injection Hx as <-; eauto. }
  assert (Hinit : ∀ y, init v TokenData {[ "username" := y ]}
            = match validate_field v (Field "username" Py_str (Some PyNone)) y with
              | inl y' => ModelInstance {[ "username" := y' ]}
              | inr e => ValidationError [("username", e)]
              end).
  { intros y. unfold init. cbn [c_fields TokenData validate_model f_name].
    rewrite lookup_singleton_eq. cbn.
    destruct (validate_field _ _ y); [by rewrite insert_empty | reflexivity]. }
  rewrite Hinit.
  destruct Hcases as [->|[s ->]].
  - destruct v; cbn; split; try done; [by left | intros [?|?]; done].
  - cbn. split; [intros _; by right | reflexivity].
Qed.

Lemma TokenData_rebuilds_iff_witness :
  init V2 TokenData ∅ = ModelInstance Samples.token_data_default
  ∧ (init V2 TokenData Samples.token_data_default = ModelInstance Samples.token_data_default
     ↔ V2 = V1 ∨ Samples.token_data_default !! "username" ≠ Some PyNone).
Proof.
  split; [vm_compute; reflexivity|].
  apply (TokenData_rebuilds_iff V2 ∅ Samples.token_data_default).
  vm_compute. reflexivity.
Defined.

(** X8. When the constructor of any class fails, its [ValidationError] names
    every field that has no value, each once and in source order: validation
    does not stop at the first failure. *)
Theorem init_reports_every_failing_field v cls (kwargs : gmap string pyobj) errors :
  init v cls kwargs = ValidationError errors →
  errors ≠ []
  ∧ map fst errors = map f_name (filter (λ f, field_value v kwargs f = None) (c_fields cls)).
Proof.
  unfold init. intros Hinit.
  pose proof (validate_model_errors v (c_fields cls) kwargs) as Herrors.
  destruct (validate_model v (c_fields cls) kwargs) as [values [|e rest]];
    [discriminate|].
  injection Hinit as <-. split; [discriminate | exact Herrors].
Qed.

Lemma init_reports_every_failing_field_witness :
  init V2 Token ∅ = ValidationError [("access_token", Missing); ("token_type", Missing)]
  ∧ [("access_token", Missing); ("token_type", Missing)] ≠ []
  ∧ map fst [("access_token", Missing); ("token_type", Missing)]
    = map f_name (filter (λ f, field_value V2 ∅ f = None) (c_fields Token)).
Proof.
  split; [vm_compute; reflexivity|].
  apply (init_reports_every_failing_field V2 Token ∅).
  vm_compute. reflexivity.
Defined.

(** X9. A [User] is built whenever [username] and [email] are both supplied
    as strings, and a [Token] whenever [access_token] and [token_type] are,
    whatever else is passed and in both versions; the instance holds exactly
    those two strings. *)
Theorem built_from_two_strings v cls (kwargs : gmap string pyobj) n1 n2 a b :
  (cls, n1, n2) ∈ [(User, "username", "email"); (Token, "access_token", "token_type")] →
  kwargs !! n1 = Some (PyStr a) → kwargs !! n2 = Some (PyStr b) →
  init v cls kwargs = ModelInstance {[ n1 := PyStr a; n2 := PyStr b ]}.
Proof.
  intros Hcls H1 H2. apply init_instance.
  apply elem_of_cons in Hcls as [[= -> -> ->]|Hcls];
    [|apply elem_of_cons in Hcls as [[= -> -> ->]|Hcls]; [|by apply elem_of_nil in Hcls]].
  all: by apply two_str_fields_ok.
Qed.

Lemma built_from_two_strings_witness :
  (User, "username", "email")
    ∈ [(User, "username", "email"); (Token, "access_token", "token_type")]
  ∧ Samples.alice_with_password !! "username" = Some (PyStr "alice")
  ∧ Samples.alice_with_password !! "email" = Some (PyStr "alice@example.org")
  ∧ init V1 User Samples.alice_with_password
    = ModelInstance {[ "username" := PyStr "alice"; "email" := PyStr "alice@example.org" ]}.
Proof.
  assert (Hcls : (User, "username", "email")
            ∈ [(User, "username", "email"); (Token, "access_token", "token_type")])
    by (apply elem_of_cons; by left).
  assert (H1 : Samples.alice_with_password !! "username" = Some (PyStr "alice"))
    by (vm_compute; reflexivity).
  assert (H2 : Samples.alice_with_password !! "email" = Some (PyStr "alice@example.org"))
    by (vm_compute; reflexivity).
  split; [exact Hcls|]. split; [exact H1|]. split; [exact H2|].
  exact (built_from_two_strings V1 User _ _ _ _ _ Hcls H1 H2).
Defined.

(* ===================================================================== *)
(** ** The statements of app/main.py                                       *)
(* ===================================================================== *)

Import Main.

(** The file only adds to the log: what ran before it stays as it was. *)
Lemma main_appends log : (main log).2 = (log ++ (exec main).2)%list.
Proof.
  unfold exec, main, import_from, create_all, FastAPI_new, include_router.
  unfold mbind, M_bind, mret, M_ret, emit. cbn.
  rewrite <- !app_assoc. reflexivity.
Qed.

(** C4, as the specification states it, fails: running [app/main.py] calls
    [Base.metadata.create_all(bind=engine)], which is work on the database. *)
Lemma main_calls_create_all :
  CreateAll "Base.metadata" "engine" ∈ (exec main).2
  ∧ is_database_work (CreateAll "Base.metadata" "engine") = true
  ∧ filter (λ e, is_database_work e) (exec main).2 ≠ [].
Proof.
  split; [|split].
  - cbn. repeat constructor.
  - reflexivity.
  - vm_compute. discriminate.
Qed.

(** C4, amended. [app/main.py] runs, in order, three imports, one call of
    [Base.metadata.create_all(bind=engine)], the construction of the [FastAPI]
    instance and one [include_router] call, and nothing else; the call of
    [create_all] is its only database work and [user.router] the only router
    registered. [app/schemas/user.py] runs two imports and its class statements,
    with no database work. *)
Theorem main_effects :
  exec main =
    ({| routers := ["user.router"] |},
     [ ImportFrom "fastapi" ["FastAPI"];
       ImportFrom "auth" ["user"];
       ImportFrom "database" ["engine"; "Base"];
       CreateAll "Base.metadata" "engine";
       NewFastAPI;
       IncludeRouter "user.router" ])
  ∧ filter (λ e, is_database_work e) (exec main).2 = [CreateAll "Base.metadata" "engine"]
  ∧ filter (λ e, is_router_registration e) (exec main).2 = [IncludeRouter "user.router"]
  ∧ exec schemas_user =
      (classes, [ImportFrom "pydantic" ["BaseModel"]; ImportFrom "typing" ["Optional"]])
  ∧ filter (λ e, is_database_work e) (exec schemas_user).2 = [].
Proof.
  assert (Hmain : exec main =
    ({| routers := ["user.router"] |},
     [ ImportFrom "fastapi" ["FastAPI"];
       ImportFrom "auth" ["user"];
       ImportFrom "database" ["engine"; "Base"];
       CreateAll "Base.metadata" "engine";
       NewFastAPI;
       IncludeRouter "user.router" ])) by reflexivity.
  assert (Hschemas : exec schemas_user =
      (classes, [ImportFrom "pydantic" ["BaseModel"]; ImportFrom "typing" ["Optional"]]))
    by reflexivity.
  rewrite Hmain, Hschemas. repeat split; vm_compute; reflexivity.
Qed.

(* ===================================================================== *)
(** ** Login and validation                                                *)
(* ===================================================================== *)

Import Auth.

#[export] Instance toy_ok : PrimitivesOk toy.
Proof.
  split.
  - intros salt p. cbn. apply String.eqb_refl.
  - intros key c. cbn. apply String.eqb_refl.
Qed.

Section Login.
Context {P : Primitives} {POk : PrimitivesOk P}.
Variable store : gmap string UserRecord.
Variables (key : string) (now : Z).

(** A login attempt ends in a terminal state, whatever the credentials. *)
Lemma login_terminal u p : step store key now (login store key now u p) = None.
Proof.
  unfold login. cbn. unfold find_by_username.
  destruct (store !! u) as [r|]; cbn; [|reflexivity].
  destruct (verify p (password_hash r)); reflexivity.
Qed.

(** A username that is not in the store is rejected after two transitions. *)
Lemma login_not_found u p :
  store !! u = None →
  login store key now u p = Rejected ∧ transitions store key now u p = 2.
Proof.
  intros Hu. unfold login, transitions. cbn. unfold find_by_username.
  rewrite Hu. split; reflexivity.
Qed.

(** A wrong password is rejected after three transitions. *)
Lemma login_bad_password u p r :
  store !! u = Some r → verify p (password_hash r) = false →
  login store key now u p = Rejected ∧ transitions store key now u p = 3.
Proof.
  intros Hu Hp. unfold login, transitions. cbn. unfold find_by_username.
  rewrite Hu. cbn. rewrite Hp. split; reflexivity.
Qed.

(** Both rejections are answered alike, with 401: the content of the response
    does not tell an unknown username from a wrong password. The number of
    transitions does differ (two against three, by the two lemmas above). *)
Lemma login_rejections_same_response u p u' p' r :
  store !! u = None →
  store !! u' = Some r → verify p' (password_hash r) = false →
  respond (login store key now u p) = Unauthorized401
  ∧ respond (login store key now u' p') = respond (login store key now u p).
Proof.
  intros Hu Hu' Hp'.
  destruct (login_not_found u p Hu) as [-> _].
  destruct (login_bad_password u' p' r Hu' Hp') as [-> _].
  split; reflexivity.
Qed.

(** A registered pair is issued a token for its username. *)
Lemma login_registered u p :
  registered store u p → login store key now u p = TokenIssued (issue key u now).
Proof.
  intros (r & salt & Hu & Hname & Hhash).
  unfold login. cbn. unfold find_by_username. rewrite Hu. cbn.
  rewrite Hhash, verify_hash, Hname. reflexivity.
Qed.

(** An issued token is expired exactly when the current time exceeds the time
    of issue plus the TTL, and valid otherwise. *)
Lemma validate_issued u now' :
  validate key now' (access_token (issue key u now))
  = if (now + Z.of_N TTL <? now')%Z then Expired
    else Valid {| claims_username := u; expires_at := (now + Z.of_N TTL)%Z |}.
Proof.
  unfold issue, validate. cbn. rewrite verify_sign. reflexivity.
Qed.

(** C5. For a registered pair, [login] issues a bearer token, and [validate] on
    that token returns claims with the username that logged in: at the time of
    the login, and at any later time up to the expiry the claims carry. *)
Theorem login_validate_roundtrip u p :
  registered store u p →
  ∃ t c, login store key now u p = TokenIssued t
       ∧ token_type t = "bearer"
       ∧ claims_username c = u
       ∧ validate key now (access_token t) = Valid c
       ∧ ∀ now', (now' ≤ expires_at c)%Z → validate key now' (access_token t) = Valid c.
Proof.
  intros Hreg.
  exists (issue key u now), {| claims_username := u; expires_at := (now + Z.of_N TTL)%Z |}.
  split; [by apply login_registered|].
  split; [reflexivity|]. split; [reflexivity|].
  assert (Hvalid : ∀ now', (now' ≤ now + Z.of_N TTL)%Z →
            validate key now' (access_token (issue key u now))
            = Valid {| claims_username := u; expires_at := (now + Z.of_N TTL)%Z |}).
  { intros now' Hnow. rewrite validate_issued.
    destruct (Z.ltb_spec (now + Z.of_N TTL) now') as [Hlt|_]; [lia | reflexivity]. }
  split; [apply Hvalid; lia | exact Hvalid].
Qed.

End Login.

(** The scenario of the specification: alice has registered and logs in at
    time 1000; her token is valid then, and until time 4600. *)
Lemma login_validate_roundtrip_witness :
  registered (H := toy) alice_store "alice" "wonderland123"
  ∧ ∃ t c, login (H := toy) alice_store "k" 1000 "alice" "wonderland123" = TokenIssued t
         ∧ token_type t = "bearer"
         ∧ claims_username c = "alice"
         ∧ validate (H := toy) "k" 1000 (access_token t) = Valid c
         ∧ ∀ now', (now' ≤ expires_at c)%Z →
                   validate (H := toy) "k" now' (access_token t) = Valid c.
Proof.
  assert (Hreg : registered (H := toy) alice_store "alice" "wonderland123").
  { exists {| username := "alice"; email := "alice@example.org";
              password_hash := "wonderland123" |}, 7.
    split; [vm_compute; reflexivity | split; reflexivity]. }
  split; [exact Hreg|].
  exact (login_validate_roundtrip (P := toy) alice_store "k" 1000%Z
           "alice" "wonderland123" Hreg).
Defined.

(** The same scenario with a wrong password, with a username nobody
    registered, and with the token presented one second too late. *)
Example login_alice_scenarios :
  respond (login (H := toy) alice_store "k" 1000 "alice" "wrong") = Unauthorized401
  ∧ respond (login (H := toy) alice_store "k" 1000 "bob" "wonderland123") = Unauthorized401
  ∧ validate (H := toy) "k" 4601 (access_token (issue (H := toy) "k" "alice" 1000)) = Expired
  ∧ validate (H := toy) "other key" 2000 (access_token (issue (H := toy) "k" "alice" 1000))
    = Invalid.
Proof. repeat split; vm_compute; reflexivity. Qed.
